(** * Structural pattern matching for data science: the malformatted-CSV cell

    A shallow embedding of the executable cells of
    [Structural_pattern_matching_for_data_science.ipynb]:

    - cell 1 binds [bad_csv];
    - cell 2 runs [for line in bad_csv.split("\n")] over a [match] statement
      with six [case] clauses, appending to the list [values];
    - cells 4 and 5 run two [match] statements on [["a"]] that differ only in
      the order of their clauses.

    Python values are embedded as follows: a [str] is a [string], the
    elements of the appended lists are [value]s ([str], [int] or [None]), a
    [match] statement is an ordered list of clauses tried from first to last,
    and the loop threads the list [values] explicitly and stops at a [raise]. *)

From Stdlib Require Import List String Ascii ZArith Bool Arith Lia.
Import ListNotations.

Local Open Scope string_scope.
Local Open Scope list_scope.

(** ** Strings: [str.split] with a one-character separator *)

Module Str.

(** The separators the notebook splits on. *)
Definition newline : ascii := "010"%char.
Definition comma : ascii := ","%char.

(** [s.split(sep)] for a separator of one character, the only form the
    notebook uses: the text is cut at every occurrence of [sep]; empty
    pieces are kept, so the result always holds at least one piece. *)
Fixpoint split (sep : ascii) (s : string) : list string :=
  match s with
  | EmptyString => [EmptyString]
  | String c rest =>
      if Ascii.eqb c sep then EmptyString :: split sep rest
      else match split sep rest with
           | tok :: toks => String c tok :: toks
           | [] => [String c EmptyString]
           end
  end.

(** Number of occurrences of a character in a text. *)
Fixpoint count_char (c : ascii) (s : string) : nat :=
  match s with
  | EmptyString => 0
  | String d rest => (if Ascii.eqb d c then 1 else 0) + count_char c rest
  end.

(** [sep.join(pieces)], the inverse of [split]. *)
Fixpoint join (sep : ascii) (pieces : list string) : string :=
  match pieces with
  | [] => EmptyString
  | [p] => p
  | p :: ps => p ++ String sep (join sep ps)
  end.

End Str.

(** ** Values, statements and the [match] statement *)

Module Py.

(** What the notebook stores in the inner lists: a token of the text, an
    integer literal, or [None]. *)
Inductive value : Type :=
| VStr (s : string)
| VInt (n : Z)
| VNone.

(** An inner list of [values]. *)
Definition record : Type := list value.

(** The statements that occur as bodies of [case] clauses. *)
Inductive stmt : Type :=
| Append (r : record)        (* values.append(r) *)
| Continue                   (* continue *)
| Raise (msg : string)       (* raise Exception(msg) *)
| Print (s : string).        (* print(s) *)

(** A [case] clause on a subject that is a list of [str]: [None] when the
    pattern does not match, otherwise the body with the captured names
    replaced by what they captured. *)
Definition clause : Type := list string -> option stmt.

(** [match subject: case ...]: the clauses are tried in the order written
    and the first one that matches is the only one run. When none matches
    the statement does nothing. *)
Fixpoint match_stmt (clauses : list clause) (subject : list string)
  : option stmt :=
  match clauses with
  | [] => None
  | c :: cs =>
      match c subject with
      | Some body => Some body
      | None => match_stmt cs subject
      end
  end.

End Py.

Import Py.

(** ** Cell 2: the clauses and the loop *)

Module Csv.

Definition NL : string := String Str.newline EmptyString.

(** Cell 1: the triple-quoted text starts with a line break. *)
Definition bad_csv : string :=
  NL ++ "0,1,2" ++ NL ++ "1,2,3" ++ NL ++ "1,2" ++ NL ++ "0" ++ NL ++ "1" ++ NL.

Definition unhandled : string :=
  "This should not happen. We want to handle every case explicitely.".

(** [case [x, y, z]: values.append([x, y, z])] *)
Definition case_xyz : clause := fun subject =>
  match subject with
  | [x; y; z] => Some (Append [VStr x; VStr y; VStr z])
  | _ => None
  end.

(** [case [x, y]: values.append([x, y, None])] *)
Definition case_xy : clause := fun subject =>
  match subject with
  | [x; y] => Some (Append [VStr x; VStr y; VNone])
  | _ => None
  end.

(** [case [""]: continue] *)
Definition case_empty : clause := fun subject =>
  match subject with
  | [x] => if String.eqb x "" then Some Continue else None
  | _ => None
  end.

(** [case ["1"]: values.append([1, 2, 3])] *)
Definition case_one : clause := fun subject =>
  match subject with
  | [x] => if String.eqb x "1"
           then Some (Append [VInt 1; VInt 2; VInt 3]) else None
  | _ => None
  end.

(** [case [x]: values.append([x, None, None])] *)
Definition case_x : clause := fun subject =>
  match subject with
  | [x] => Some (Append [VStr x; VNone; VNone])
  | _ => None
  end.

(** [case _: raise Exception(...)] *)
Definition case_default : clause := fun _ => Some (Raise unhandled).

(** The clauses in the order of the cell. *)
Definition clauses : list clause :=
  [case_xyz; case_xy; case_empty; case_one; case_x; case_default].

(** [match line.split(","): ...] *)
Definition classify (tokens : list string) : option stmt :=
  match_stmt clauses tokens.

(** How the loop can leave a piece of code: normally, or by an exception
    that nothing catches. Both carry the list [values] as it stands. *)
Inductive outcome : Type :=
| Normal (values : list record)
| Raised (msg : string) (values : list record).

Definition values_of (o : outcome) : list record :=
  match o with
  | Normal values => values
  | Raised _ values => values
  end.

Definition raised (o : outcome) : bool :=
  match o with
  | Normal _ => false
  | Raised _ _ => true
  end.

(** One pass through the body of the [for] loop. *)
Definition body (line : string) (values : list record) : outcome :=
  match classify (Str.split Str.comma line) with
  | Some (Append r) => Normal (values ++ [r])
  | Some Continue => Normal values
  | Some (Raise msg) => Raised msg values
  | Some (Print _) => Normal values
  | None => Normal values
  end.

(** [for line in lines: body] *)
Fixpoint for_loop (lines : list string) (values : list record) : outcome :=
  match lines with
  | [] => Normal values
  | line :: rest =>
      match body line values with
      | Normal values' => for_loop rest values'
      | Raised msg values' => Raised msg values'
      end
  end.

(** Cell 2 as a function of the text: [values = []] and the loop over
    [text.split("\n")]. *)
Definition transform (text : string) : outcome :=
  for_loop (Str.split Str.newline text) [].

(** The clauses with [case [x]] moved in front of [case ["1"]]. *)
Definition clauses_reordered : list clause :=
  [case_xyz; case_xy; case_empty; case_x; case_one; case_default].

Definition classify_reordered (tokens : list string) : option stmt :=
  match_stmt clauses_reordered tokens.

(** What one line adds to [values]. *)
Definition emitted (line : string) : list record :=
  values_of (body line []).

(** Whether the body raises on a line. *)
Definition raises_on (line : string) : bool :=
  raised (body line []).

(** The lines the loop gets through: those in front of the first line on
    which the body raises. *)
Fixpoint rows_before_raise (lines : list string) : list string :=
  match lines with
  | [] => []
  | line :: rest =>
      if raises_on line then [] else line :: rows_before_raise rest
  end.

(** A line that is not the empty text. *)
Definition nonempty (line : string) : bool := negb (String.eqb line "").

(** Where an element of a record comes from: a [str] is a token of the
    line, an [int] is one of the literals 1, 2, 3 of the fourth clause. *)
Definition from_line (line : string) (v : value) : Prop :=
  match v with
  | VStr tok => In tok (Str.split Str.comma line)
  | VInt n => (1 <= n <= 3)%Z
  | VNone => True
  end.

Definition from_text (text : string) (v : value) : Prop :=
  exists line, In line (Str.split Str.newline text) /\ from_line line v.

End Csv.

(** ** Cells 4 and 5: the order of the clauses *)

Module Demo.

(** [case [x]: print("x")] *)
Definition case_capture : clause := fun subject =>
  match subject with
  | [x] => Some (Print "x")
  | _ => None
  end.

(** [case ["a"]: print("a")] *)
Definition case_literal : clause := fun subject =>
  match subject with
  | [x] => if String.eqb x "a" then Some (Print "a") else None
  | _ => None
  end.

(** Cell 4. *)
Definition capture_first : option stmt :=
  match_stmt [case_capture; case_literal] ["a"].

(** Cell 5. *)
Definition literal_first : option stmt :=
  match_stmt [case_literal; case_capture] ["a"].

End Demo.

Import Csv.

(** ** Vocabulary for the properties of the result *)

(** The four forms of a record that a clause of cell 2 appends. *)
Definition normalized (r : record) : Prop :=
  (exists x y z, r = [VStr x; VStr y; VStr z])
  \/ (exists x y, r = [VStr x; VStr y; VNone])
  \/ (exists x, x <> "" /\ x <> "1" /\ r = [VStr x; VNone; VNone])
  \/ r = [VInt 1; VInt 2; VInt 3].

(** A [str] element that holds neither separator. *)
Definition separator_free (v : value) : Prop :=
  match v with
  | VStr tok =>
      Str.count_char Str.comma tok = 0 /\ Str.count_char Str.newline tok = 0
  | VInt _ => True
  | VNone => True
  end.

(** A list of records put in front of what an outcome carries. *)
Definition prepend (front : list record) (o : outcome) : outcome :=
  match o with
  | Normal values => Normal (front ++ values)
  | Raised msg values => Raised msg (front ++ values)
  end.

(** One piece of code run after another: the second runs on the [values]
    the first leaves, unless the first raised. *)
Definition and_then (o : outcome) (next : list record -> outcome) : outcome :=
  match o with
  | Normal values => next values
  | Raised msg values => Raised msg values
  end.

(** ** The run recorded in the notebook (cells 1 to 3) *)

Example split_bad_csv :
  Str.split Str.newline bad_csv = [""; "0,1,2"; "1,2,3"; "1,2"; "0"; "1"; ""].
Proof. reflexivity. Qed.

Example transform_bad_csv :
  transform bad_csv =
  Normal [[VStr "0"; VStr "1"; VStr "2"];
          [VStr "1"; VStr "2"; VStr "3"];
          [VStr "1"; VStr "2"; VNone];
          [VStr "0"; VNone; VNone];
          [VInt 1; VInt 2; VInt 3]].
Proof. reflexivity. Qed.

(** ** Facts about [split] *)

Section SplitFacts.

Variable sep : ascii.

Lemma split_not_nil (s : string) : Str.split sep s <> [].
Proof.
  destruct s as [|c rest]; simpl; [discriminate|].
  destruct (Ascii.eqb c sep); [discriminate|].
  destruct (Str.split sep rest); discriminate.
Qed.

Lemma split_length (s : string) :
  List.length (Str.split sep s) = S (Str.count_char sep s).
Proof.
  induction s as [|c rest IH]; simpl; [reflexivity|].
  destruct (Ascii.eqb c sep); simpl.
  - now rewrite IH.
  - destruct (Str.split sep rest) as [|tok toks] eqn:E; simpl in *; lia.
Qed.

Lemma join_split (s : string) : Str.join sep (Str.split sep s) = s.
Proof.
  induction s as [|c rest IH]; simpl; [reflexivity|].
  destruct (Ascii.eqb c sep) eqn:E.
  - apply Ascii.eqb_eq in E; subst c.
    destruct (Str.split sep rest) as [|tok toks] eqn:F.
    + now apply split_not_nil in F.
    + change (Str.join sep ("" :: tok :: toks))
        with (String sep (Str.join sep (tok :: toks))).
      now rewrite IH.
  - destruct (Str.split sep rest) as [|tok toks] eqn:F.
    + now apply split_not_nil in F.
    + destruct toks as [|tok' toks]; simpl in *; now rewrite IH.
Qed.

Lemma split_singleton (s tok : string) :
  Str.split sep s = [tok] -> s = tok.
Proof.
  intros H. rewrite <- (join_split s), H. reflexivity.
Qed.

End SplitFacts.

(** ** The [match] statement, clause by clause *)

Lemma classify_three (x y z : string) :
  classify [x; y; z] = Some (Append [VStr x; VStr y; VStr z]).
Proof. reflexivity. Qed.

Lemma classify_two (x y : string) :
  classify [x; y] = Some (Append [VStr x; VStr y; VNone]).
Proof. reflexivity. Qed.

Lemma classify_single (x : string) :
  classify [x] =
  if String.eqb x "" then Some Continue
  else if String.eqb x "1" then Some (Append [VInt 1; VInt 2; VInt 3])
  else Some (Append [VStr x; VNone; VNone]).
Proof.
  unfold classify, clauses; simpl.
  destruct (String.eqb x ""); [reflexivity|].
  destruct (String.eqb x "1"); reflexivity.
Qed.

Lemma classify_nil : classify [] = Some (Raise unhandled).
Proof. reflexivity. Qed.

Lemma classify_four_or_more (a b c d : string) (more : list string) :
  classify (a :: b :: c :: d :: more) = Some (Raise unhandled).
Proof. reflexivity. Qed.

(** The default clause is the one taken exactly on the subjects of length 0
    and of length 4 or more. *)
Lemma classify_raise_iff (tokens : list string) (msg : string) :
  classify tokens = Some (Raise msg) <->
  msg = unhandled /\ (List.length tokens = 0 \/ 4 <= List.length tokens).
Proof.
  destruct tokens as [|a [|b [|c [|d more]]]].
  - rewrite classify_nil. split.
    + intros [= <-]. split; [reflexivity | left; reflexivity].
    + intros [-> _]. reflexivity.
  - rewrite classify_single. simpl. split.
    + destruct (String.eqb a ""); [discriminate|].
      destruct (String.eqb a "1"); discriminate.
    + intros [_ [H | H]]; [discriminate | lia].
  - rewrite classify_two. simpl. split;
      [discriminate | intros [_ [H | H]]; [discriminate | lia]].
  - rewrite classify_three. simpl. split;
      [discriminate | intros [_ [H | H]]; [discriminate | lia]].
  - rewrite classify_four_or_more. simpl. split.
    + intros [= <-]. split; [reflexivity | right; lia].
    + intros [-> _]. reflexivity.
Qed.

(** No clause prints and some clause always matches. *)
Lemma classify_cases (tokens : list string) :
  (exists r, classify tokens = Some (Append r))
  \/ classify tokens = Some Continue
  \/ classify tokens = Some (Raise unhandled).
Proof.
  destruct tokens as [|a [|b [|c [|d more]]]].
  - right; right; reflexivity.
  - rewrite classify_single.
    destruct (String.eqb a ""); [right; left; reflexivity|].
    destruct (String.eqb a "1"); left; eexists; reflexivity.
  - left; eexists; reflexivity.
  - left; eexists; reflexivity.
  - right; right; reflexivity.
Qed.

(** ** The loop body *)

(** The body only ever adds to the end of [values]: what it does on a list
    [values] is what it does on the empty list, after [values]. *)
Lemma body_frame (line : string) (values : list record) :
  body line values =
  match body line [] with
  | Normal added => Normal (values ++ added)
  | Raised msg _ => Raised msg values
  end.
Proof.
  unfold body.
  destruct (classify (Str.split Str.comma line)) as [[r| |msg|s]|]; simpl;
    rewrite ?app_nil_r; reflexivity.
Qed.

Lemma body_emitted (line : string) (values : list record) :
  raises_on line = false ->
  body line values = Normal (values ++ emitted line).
Proof.
  unfold raises_on, emitted. intros H. rewrite body_frame.
  destruct (body line []); [reflexivity | discriminate].
Qed.

Lemma body_raises (line : string) (values : list record) :
  raises_on line = true ->
  body line values = Raised unhandled values.
Proof.
  unfold raises_on. intros H. rewrite body_frame.
  unfold body in *.
  destruct (classify_cases (Str.split Str.comma line)) as [[r E] | [E | E]];
    rewrite E in *; simpl in *; try discriminate; reflexivity.
Qed.

(** The body raises exactly on the lines with three commas or more. *)
Lemma raises_on_commas (line : string) :
  raises_on line = true <-> 3 <= Str.count_char Str.comma line.
Proof.
  unfold raises_on, body.
  pose proof (split_length Str.comma line) as L.
  destruct (Str.split Str.comma line) as [|a [|b [|c [|d more]]]] eqn:E;
    simpl in L.
  - discriminate.
  - rewrite classify_single.
    destruct (String.eqb a ""); [|destruct (String.eqb a "1")]; simpl;
      split; try discriminate; lia.
  - simpl. split; [discriminate | lia].
  - simpl. split; [discriminate | lia].
  - simpl. split; [lia | reflexivity].
Qed.

Lemma raises_on_false_commas (line : string) :
  raises_on line = false <-> Str.count_char Str.comma line < 3.
Proof.
  pose proof (raises_on_commas line) as [H1 H2].
  destruct (raises_on line) eqn:R.
  - split; [discriminate|]. intros G. specialize (H1 eq_refl). lia.
  - split; [|reflexivity]. intros _.
    destruct (Nat.lt_ge_cases (Str.count_char Str.comma line) 3) as [K | K];
      [exact K | apply H2 in K; discriminate].
Qed.

(** An empty line adds nothing. *)
Lemma emitted_empty : emitted "" = [].
Proof. reflexivity. Qed.

(** ** The loop *)

Lemma for_loop_values (lines : list string) (values : list record) :
  values_of (for_loop lines values) =
  values ++ flat_map emitted (rows_before_raise lines).
Proof.
  revert values.
  induction lines as [|line rest IH]; intros values; simpl.
  - now rewrite app_nil_r.
  - destruct (raises_on line) eqn:R.
    + rewrite (body_raises line values R). simpl. now rewrite app_nil_r.
    + rewrite (body_emitted line values R), IH. simpl.
      now rewrite app_assoc.
Qed.

Lemma for_loop_raised (lines : list string) (values : list record) :
  raised (for_loop lines values) = existsb raises_on lines.
Proof.
  revert values.
  induction lines as [|line rest IH]; intros values; simpl; [reflexivity|].
  destruct (raises_on line) eqn:R.
  - now rewrite (body_raises line values R).
  - now rewrite (body_emitted line values R), IH.
Qed.

Lemma for_loop_outcome (lines : list string) (values : list record) :
  for_loop lines values =
  if existsb raises_on lines
  then Raised unhandled (values ++ flat_map emitted (rows_before_raise lines))
  else Normal (values ++ flat_map emitted lines).
Proof.
  revert values.
  induction lines as [|line rest IH]; intros values; simpl.
  - now rewrite app_nil_r.
  - destruct (raises_on line) eqn:R; simpl.
    + rewrite (body_raises line values R). now rewrite app_nil_r.
    + rewrite (body_emitted line values R), IH.
      destruct (existsb raises_on rest); now rewrite <- app_assoc.
Qed.

Lemma rows_before_raise_all (lines : list string) :
  existsb raises_on lines = false -> rows_before_raise lines = lines.
Proof.
  induction lines as [|line rest IH]; simpl; [reflexivity|].
  destruct (raises_on line); simpl; [discriminate|].
  intros H. now rewrite IH.
Qed.

Lemma rows_before_raise_split (pre post : list string) (bad : string) :
  existsb raises_on pre = false -> raises_on bad = true ->
  rows_before_raise (pre ++ bad :: post) = pre.
Proof.
  intros Hpre Hbad.
  induction pre as [|line rest IH]; simpl in *.
  - now rewrite Hbad.
  - destruct (raises_on line); simpl in *; [discriminate|].
    now rewrite IH.
Qed.

Lemma flat_map_emitted_nonempty (lines : list string) :
  flat_map emitted (filter nonempty lines) =
  flat_map emitted lines.
Proof.
  induction lines as [|line rest IH]; simpl; [reflexivity|].
  unfold nonempty at 1.
  destruct (String.eqb line "") eqn:E; simpl.
  - apply String.eqb_eq in E; subst line. exact IH.
  - now rewrite IH.
Qed.

(** Empty lines can be dropped from the input of the loop. *)
Lemma for_loop_skip_empty (pre post : list string) (values : list record) :
  for_loop (pre ++ "" :: post) values = for_loop (pre ++ post) values.
Proof.
  revert values.
  induction pre as [|line rest IH]; intros values; simpl; [reflexivity|].
  destruct (body line values); [apply IH | reflexivity].
Qed.

Lemma for_loop_filter_nonempty (lines : list string) (values : list record) :
  for_loop (filter nonempty lines) values = for_loop lines values.
Proof.
  revert values.
  induction lines as [|line rest IH]; intros values; simpl; [reflexivity|].
  unfold nonempty at 1.
  destruct (String.eqb line "") eqn:E; simpl.
  - apply String.eqb_eq in E; subst line. apply IH.
  - destruct (body line values); [apply IH | reflexivity].
Qed.

Lemma rows_before_raise_filter (lines : list string) :
  rows_before_raise (filter nonempty lines) =
  filter nonempty (rows_before_raise lines).
Proof.
  induction lines as [|line rest IH]; simpl; [reflexivity|].
  unfold nonempty at 1.
  destruct (String.eqb line "") eqn:E; simpl.
  - apply String.eqb_eq in E; subst line. simpl. exact IH.
  - destruct (raises_on line); simpl; [reflexivity|].
    unfold nonempty at 2. rewrite E. simpl. now rewrite IH.
Qed.

(** Closes [length r = 3 /\ Forall P r] on an explicit three-element [r]. *)
Ltac record_shape :=
  split;
  [ reflexivity
  | repeat (apply Forall_cons; [simpl; auto; try lia |]); apply Forall_nil ].

(** Every record the body adds has three elements, each taken from the
    line or from the literals of the clause. *)
Lemma emitted_shape (line : string) (r : record) :
  In r (emitted line) ->
  List.length r = 3 /\ Forall (from_line line) r.
Proof.
  unfold emitted, body, from_line.
  destruct (Str.split Str.comma line) as [|a [|b [|c [|d more]]]] eqn:E.
  - simpl. intros [].
  - rewrite classify_single.
    destruct (String.eqb a ""); [simpl; intros []|].
    destruct (String.eqb a "1"); simpl; intros [<- | []]; record_shape.
  - simpl. intros [<- | []]. record_shape.
  - simpl. intros [<- | []]. record_shape.
  - simpl. intros [].
Qed.

(** * The claims *)

(** ** The single rows (C4 to C7) *)

(** C4. A line that splits into the single token ["1"] makes the body append
    the record of integers [[1, 2, 3]]. Both [case ["1"]] and [case [x]]
    match such a line; the record appended is the one of [case ["1"]], which
    is written first, and the token itself is not part of it. *)
Theorem C4_token_one_gives_1_2_3 (line : string) (values : list record) :
  Str.split Str.comma line = ["1"] ->
  body line values = Normal (values ++ [[VInt 1; VInt 2; VInt 3]])
  /\ case_one (Str.split Str.comma line)
     = Some (Append [VInt 1; VInt 2; VInt 3])
  /\ case_x (Str.split Str.comma line)
     = Some (Append [VStr "1"; VNone; VNone])
  /\ line = "1".
Proof.
  intros H. repeat split.
  - unfold body. rewrite H. reflexivity.
  - rewrite H. reflexivity.
  - rewrite H. reflexivity.
  - exact (split_singleton _ _ _ H).
Qed.

Lemma C4_witness :
  body "1" [] = Normal ([] ++ [[VInt 1; VInt 2; VInt 3]])
  /\ case_one (Str.split Str.comma "1")
     = Some (Append [VInt 1; VInt 2; VInt 3])
  /\ case_x (Str.split Str.comma "1")
     = Some (Append [VStr "1"; VNone; VNone])
  /\ "1" = "1".
Proof. apply (C4_token_one_gives_1_2_3 "1" []). reflexivity. Defined.

(** C5. A line that splits into exactly three tokens [x], [y], [z] makes the
    body append the record [[x, y, z]]: the three tokens, unchanged and in
    the same order. *)
Theorem C5_three_tokens_kept (line x y z : string) (values : list record) :
  Str.split Str.comma line = [x; y; z] ->
  body line values = Normal (values ++ [[VStr x; VStr y; VStr z]]).
Proof.
  intros H. unfold body. rewrite H. reflexivity.
Qed.

Lemma C5_witness :
  body "0,1,2" [] = Normal ([] ++ [[VStr "0"; VStr "1"; VStr "2"]]).
Proof. apply (C5_three_tokens_kept "0,1,2" "0" "1" "2" []). reflexivity. Defined.

(** C6. A line that splits into exactly two tokens [x], [y] makes the body
    append the record [[x, y, None]]. *)
Theorem C6_two_tokens_padded (line x y : string) (values : list record) :
  Str.split Str.comma line = [x; y] ->
  body line values = Normal (values ++ [[VStr x; VStr y; VNone]]).
Proof.
  intros H. unfold body. rewrite H. reflexivity.
Qed.

Lemma C6_witness :
  body "1,2" [] = Normal ([] ++ [[VStr "1"; VStr "2"; VNone]]).
Proof. apply (C6_two_tokens_padded "1,2" "1" "2" []). reflexivity. Defined.

(** C7. A line that splits into exactly one token [x], where [x] is neither
    the empty text nor ["1"], makes the body append [[x, None, None]]. *)
Theorem C7_other_single_token (line x : string) (values : list record) :
  Str.split Str.comma line = [x] ->
  x <> "" -> x <> "1" ->
  body line values = Normal (values ++ [[VStr x; VNone; VNone]]).
Proof.
  intros H Hempty Hone. unfold body. rewrite H, classify_single.
  apply String.eqb_neq in Hempty, Hone. rewrite Hempty, Hone. reflexivity.
Qed.

Lemma C7_witness :
  body "0" [] = Normal ([] ++ [[VStr "0"; VNone; VNone]]).
Proof.
  apply (C7_other_single_token "0" "0" []);
    [reflexivity | discriminate | discriminate].
Defined.

(** ** The whole text (C2) *)

(** C2. On the text ["0,1,2\n1,2,3\n1,2\n0\n1\n"] the text splits into the
    five rows and a trailing empty row, and the loop ends normally with
    [values] equal to
    [[["0","1","2"], ["1","2","3"], ["1","2",None], ["0",None,None], [1,2,3]]]:
    the trailing empty row adds nothing. *)
Theorem C2_end_to_end :
  Str.split Str.newline
    ("0,1,2" ++ NL ++ "1,2,3" ++ NL ++ "1,2" ++ NL ++ "0" ++ NL ++ "1" ++ NL)%string
  = ["0,1,2"; "1,2,3"; "1,2"; "0"; "1"; ""]
  /\ transform
       ("0,1,2" ++ NL ++ "1,2,3" ++ NL ++ "1,2" ++ NL ++ "0" ++ NL ++ "1" ++ NL)%string
     = Normal [[VStr "0"; VStr "1"; VStr "2"];
               [VStr "1"; VStr "2"; VStr "3"];
               [VStr "1"; VStr "2"; VNone];
               [VStr "0"; VNone; VNone];
               [VInt 1; VInt 2; VInt 3]].
Proof. split; reflexivity. Qed.

(** ** The order of the clauses (C3) *)

(** With [case [x]] in front of [case ["1"]], the later clause is dead: the
    statement behaves as if [case ["1"]] were not there. *)
Lemma reordered_shadows_case_one (tokens : list string) :
  classify_reordered tokens =
  match_stmt [case_xyz; case_xy; case_empty; case_x; case_default] tokens.
Proof.
  destruct tokens as [|a [|b [|c [|d more]]]]; reflexivity.
Qed.

Lemma reordered_agrees_elsewhere (tokens : list string) :
  tokens <> ["1"] -> classify_reordered tokens = classify tokens.
Proof.
  intros H.
  destruct tokens as [|a [|b [|c [|d more]]]]; try reflexivity.
  rewrite classify_single.
  unfold classify_reordered, clauses_reordered; simpl.
  destruct (String.eqb a ""); [reflexivity|].
  destruct (String.eqb a "1") eqn:E; [|reflexivity].
  apply String.eqb_eq in E. subst a. now contradiction H.
Qed.

(** C3. The order of the clauses matters. On the row ["1"] the statement as
    written appends [[1, 2, 3]], and the statement with [case [x]] moved in
    front of [case ["1"]] appends [["1", None, None]], so the two are
    different functions. The capture clause [case [x]] matches every subject
    of one token, so that in the reordered statement [case ["1"]] is never
    the clause taken; on every subject other than [["1"]] the two statements
    agree. Cells 4 and 5 show the same on [["a"]]: capture first prints [x],
    literal first prints [a]. *)
Theorem C3_clause_order_matters :
  classify (Str.split Str.comma "1") = Some (Append [VInt 1; VInt 2; VInt 3])
  /\ classify_reordered (Str.split Str.comma "1")
     = Some (Append [VStr "1"; VNone; VNone])
  /\ classify_reordered <> classify
  /\ (forall x, case_x [x] = Some (Append [VStr x; VNone; VNone]))
  /\ (forall tokens,
        classify_reordered tokens =
        match_stmt [case_xyz; case_xy; case_empty; case_x; case_default] tokens)
  /\ (forall tokens,
        tokens <> ["1"] -> classify_reordered tokens = classify tokens)
  /\ Demo.capture_first = Some (Print "x")
  /\ Demo.literal_first = Some (Print "a").
Proof.
  split; [reflexivity|].
  split; [reflexivity|].
  split.
  { intros H. apply (f_equal (fun f => f ["1"])) in H. discriminate H. }
  split; [reflexivity|].
  split; [exact reordered_shadows_case_one|].
  split; [exact reordered_agrees_elsewhere|].
  split; reflexivity.
Qed.

(** ** The default clause (C1, C10) *)

(** C1 as stated fails: a line with three commas splits into four tokens,
    no clause but the default one matches, and the loop raises. *)
Lemma C1_counterexample_four_tokens :
  Str.split Str.comma "0,1,2,3" = ["0"; "1"; "2"; "3"]
  /\ classify (Str.split Str.comma "0,1,2,3") = Some (Raise unhandled)
  /\ transform "0,1,2,3" = Raised unhandled []
  /\ ~ (forall text, raised (transform text) = false).
Proof.
  repeat split; try reflexivity.
  intros H. specialize (H "0,1,2,3"). discriminate H.
Qed.

(** C1, amended. On a text whose lines each hold at most two commas, every
    row is matched by one of the first five clauses (it is appended to or
    skipped), the default clause is never taken and the loop ends normally. *)
Theorem C1_no_raise_up_to_two_commas (text : string) :
  (forall line, In line (Str.split Str.newline text) ->
                Str.count_char Str.comma line <= 2) ->
  (forall line, In line (Str.split Str.newline text) ->
     (exists r, classify (Str.split Str.comma line) = Some (Append r))
     \/ classify (Str.split Str.comma line) = Some Continue)
  /\ exists values, transform text = Normal values.
Proof.
  intros H. split.
  - intros line Hin. specialize (H line Hin).
    destruct (classify_cases (Str.split Str.comma line)) as [E | [E | E]];
      [left; exact E | right; exact E |].
    apply classify_raise_iff in E. destruct E as [_ E].
    rewrite split_length in E. lia.
  - unfold transform. rewrite for_loop_outcome.
    assert (E : existsb raises_on (Str.split Str.newline text) = false).
    { apply not_true_is_false. intros K.
      apply existsb_exists in K. destruct K as [line [Hin K]].
      apply raises_on_commas in K. specialize (H line Hin). lia. }
    rewrite E. eexists. reflexivity.
Qed.

Lemma C1_witness :
  (forall line, In line (Str.split Str.newline bad_csv) ->
     (exists r, classify (Str.split Str.comma line) = Some (Append r))
     \/ classify (Str.split Str.comma line) = Some Continue)
  /\ exists values, transform bad_csv = Normal values.
Proof.
  apply (C1_no_raise_up_to_two_commas bad_csv).
  intros line Hin. simpl in Hin.
  repeat (destruct Hin as [<- | Hin]; [vm_compute; lia|]).
  destruct Hin.
Defined.

(** C10. The loop raises exactly when some line of the text holds three
    commas or more, that is, splits into four tokens or more; [split] never
    gives an empty list, so the other subject on which the default clause
    would be taken cannot occur. The loop stops at the first such line: the
    exception carries the message of the default clause, and [values] holds
    what the lines in front of that line added, whatever comes after it. *)
Theorem C10_raises_iff_three_commas (text : string) :
  (raised (transform text) = true <->
   Exists (fun line => 3 <= Str.count_char Str.comma line)
          (Str.split Str.newline text))
  /\ (forall line,
        3 <= Str.count_char Str.comma line <->
        4 <= List.length (Str.split Str.comma line))
  /\ (forall sep s, List.length (Str.split sep s) <> 0)
  /\ (forall line,
        classify (Str.split Str.comma line) = Some (Raise unhandled) <->
        4 <= List.length (Str.split Str.comma line))
  /\ (forall pre bad post,
        Str.split Str.newline text = pre ++ bad :: post ->
        Forall (fun line => Str.count_char Str.comma line < 3) pre ->
        3 <= Str.count_char Str.comma bad ->
        transform text = Raised unhandled (flat_map emitted pre)).
Proof.
  split; [|split; [|split; [|split]]].
  - unfold transform. rewrite for_loop_raised, existsb_exists, Exists_exists.
    split; intros [line [Hin H]]; exists line; (split; [exact Hin|]);
      now apply raises_on_commas.
  - intros line. rewrite split_length. lia.
  - intros sep s. rewrite split_length. discriminate.
  - intros line. rewrite classify_raise_iff.
    pose proof (split_length Str.comma line). intuition lia.
  - intros pre bad post Hsplit Hpre Hbad.
    unfold transform. rewrite for_loop_outcome, Hsplit.
    assert (Epre : existsb raises_on pre = false).
    { apply not_true_is_false. intros K.
      apply existsb_exists in K. destruct K as [line [Hin K]].
      apply raises_on_commas in K.
      rewrite Forall_forall in Hpre. specialize (Hpre line Hin). lia. }
    apply raises_on_commas in Hbad.
    rewrite existsb_app. simpl. rewrite Hbad, orb_true_r. simpl.
    now rewrite (rows_before_raise_split pre post bad Epre Hbad).
Qed.

Lemma C10_witness :
  transform ("0,1" ++ NL ++ "1,2,3,4" ++ NL ++ "5")%string
  = Raised unhandled [[VStr "0"; VStr "1"; VNone]].
Proof.
  apply (C10_raises_iff_three_commas
           ("0,1" ++ NL ++ "1,2,3,4" ++ NL ++ "5")%string)
    with (pre := ["0,1"]) (bad := "1,2,3,4") (post := ["5"]).
  - reflexivity.
  - repeat constructor.
  - vm_compute. lia.
Defined.

(** ** Empty rows and the order of the records (C8) *)

(** C8. An empty row leaves [values] as it is, so that dropping the empty
    rows from the input changes nothing, anywhere in the input. What the
    loop leaves in [values] is what the rows it got through add one by one,
    in the order of the rows, the empty rows left out; when the loop ends
    normally these are all the rows of the text. The empty text splits into
    one empty row and gives the empty list. *)
Theorem C8_empty_rows_skipped_order_kept (text : string) :
  (forall values, body "" values = Normal values)
  /\ emitted "" = []
  /\ for_loop (filter nonempty (Str.split Str.newline text)) [] = transform text
  /\ (forall pre post values,
        for_loop (pre ++ "" :: post) values = for_loop (pre ++ post) values)
  /\ values_of (transform text)
     = flat_map emitted
         (filter nonempty (rows_before_raise (Str.split Str.newline text)))
  /\ (raised (transform text) = false ->
      transform text
      = Normal (flat_map emitted
                  (filter nonempty (Str.split Str.newline text))))
  /\ Str.split Str.newline "" = [""]
  /\ transform "" = Normal [].
Proof.
  split; [reflexivity|].
  split; [reflexivity|].
  split; [apply for_loop_filter_nonempty|].
  split; [exact for_loop_skip_empty|].
  split.
  { unfold transform. rewrite for_loop_values, flat_map_emitted_nonempty.
    reflexivity. }
  split; [|split; reflexivity].
  unfold transform. rewrite for_loop_raised, for_loop_outcome.
  intros ->. now rewrite flat_map_emitted_nonempty.
Qed.

Lemma C8_witness :
  transform bad_csv
  = Normal (flat_map emitted (filter nonempty (Str.split Str.newline bad_csv))).
Proof.
  apply (C8_empty_rows_skipped_order_kept bad_csv). reflexivity.
Defined.

(** ** The shape of the result (C9) *)

(** C9. When the loop ends normally on a text, every record of [values] has
    exactly three elements, and each element is a token of a line of the
    text, one of the integers 1, 2, 3, or [None]. *)
Theorem C9_rectangular (text : string) (values : list record) :
  transform text = Normal values ->
  Forall (fun r => List.length r = 3 /\ Forall (from_text text) r) values.
Proof.
  unfold transform. rewrite for_loop_outcome.
  destruct (existsb raises_on (Str.split Str.newline text)); [discriminate|].
  intros [= <-]. simpl.
  apply Forall_forall. intros r Hin.
  apply in_flat_map in Hin. destruct Hin as [line [Hline Hr]].
  destruct (emitted_shape line r Hr) as [Hlen Hall].
  split; [exact Hlen|].
  apply Forall_forall. intros v Hv.
  rewrite Forall_forall in Hall.
  exists line. split; [exact Hline | exact (Hall v Hv)].
Qed.

Lemma C9_witness :
  Forall (fun r => List.length r = 3 /\ Forall (from_text bad_csv) r)
    [[VStr "0"; VStr "1"; VStr "2"];
     [VStr "1"; VStr "2"; VStr "3"];
     [VStr "1"; VStr "2"; VNone];
     [VStr "0"; VNone; VNone];
     [VInt 1; VInt 2; VInt 3]].
Proof. apply (C9_rectangular bad_csv). reflexivity. Defined.

(** * Further properties of the cells *)

(** ** More on [split] *)

Section SplitPieces.

Variable sep : ascii.

(** Splitting two texts glued by the separator gives the pieces of the
    first followed by the pieces of the second. *)
Lemma split_glue (a b : string) :
  Str.split sep (a ++ String sep b) = Str.split sep a ++ Str.split sep b.
Proof.
  induction a as [|c a' IH]; simpl.
  - now rewrite Ascii.eqb_refl.
  - destruct (Ascii.eqb c sep); [now rewrite IH|].
    rewrite IH.
    destruct (Str.split sep a') as [|tok toks] eqn:E; [|reflexivity].
    now apply split_not_nil in E.
Qed.

(** A piece holds no more occurrences of a character than the text. *)
Lemma split_piece_le (c : ascii) (s p : string) :
  In p (Str.split sep s) -> Str.count_char c p <= Str.count_char c s.
Proof.
  revert p. induction s as [|d rest IH]; intros p; simpl.
  - intros [<- | []]. reflexivity.
  - destruct (Ascii.eqb d sep).
    + intros [<- | Hin]; simpl; [lia|]. specialize (IH p Hin). lia.
    + destruct (Str.split sep rest) as [|tok toks] eqn:E.
      * intros [<- | []]. simpl. lia.
      * intros [<- | Hin]; simpl.
        -- specialize (IH tok (or_introl eq_refl)). lia.
        -- specialize (IH p (or_intror Hin)). lia.
Qed.

(** No piece holds the separator. *)
Lemma split_piece_no_sep (s p : string) :
  In p (Str.split sep s) -> Str.count_char sep p = 0.
Proof.
  revert p. induction s as [|d rest IH]; intros p; simpl.
  - intros [<- | []]. reflexivity.
  - destruct (Ascii.eqb d sep) eqn:D.
    + intros [<- | Hin]; [reflexivity | exact (IH p Hin)].
    + destruct (Str.split sep rest) as [|tok toks] eqn:E.
      * intros [<- | []]. simpl. now rewrite D.
      * intros [<- | Hin]; simpl.
        -- rewrite D. exact (IH tok (or_introl eq_refl)).
        -- exact (IH p (or_intror Hin)).
Qed.

Lemma split_injective (s t : string) :
  Str.split sep s = Str.split sep t -> s = t.
Proof.
  intros H. rewrite <- (join_split sep s), <- (join_split sep t), H.
  reflexivity.
Qed.

End SplitPieces.

(** ** More on the [match] statement *)

Lemma match_stmt_app (pre post : list clause) (subject : list string) :
  match_stmt (pre ++ post) subject =
  match match_stmt pre subject with
  | Some taken => Some taken
  | None => match_stmt post subject
  end.
Proof.
  induction pre as [|c pre IH]; simpl; [reflexivity|].
  destruct (c subject); [reflexivity | exact IH].
Qed.

(** ** More on the loop *)

Lemma for_loop_app (front back : list string) (values : list record) :
  for_loop (front ++ back) values =
  and_then (for_loop front values) (for_loop back).
Proof.
  revert values.
  induction front as [|line rest IH]; intros values; simpl; [reflexivity|].
  destruct (body line values); [apply IH | reflexivity].
Qed.

Lemma for_loop_prepend (lines : list string) (values : list record) :
  for_loop lines values = prepend values (for_loop lines []).
Proof.
  rewrite (for_loop_outcome lines values), (for_loop_outcome lines []).
  destruct (existsb raises_on lines); reflexivity.
Qed.

Lemma transform_glue (a b : string) :
  transform (a ++ NL ++ b) =
  and_then (transform a) (fun values => prepend values (transform b)).
Proof.
  unfold transform. change (a ++ NL ++ b)%string with (a ++ String Str.newline b)%string.
  rewrite split_glue, for_loop_app.
  destruct (for_loop (Str.split Str.newline a) []); simpl; [|reflexivity].
  apply for_loop_prepend.
Qed.

Lemma rows_before_raise_incl (lines : list string) (line : string) :
  In line (rows_before_raise lines) ->
  In line lines /\ raises_on line = false.
Proof.
  induction lines as [|l rest IH]; simpl; [intros []|].
  destruct (raises_on l) eqn:R; [intros []|].
  intros [<- | Hin]; [split; [left; reflexivity | exact R]|].
  destruct (IH Hin) as [H1 H2]. split; [right; exact H1 | exact H2].
Qed.

(** What a line adds, by the number of its tokens. *)
Lemma emitted_inv (line : string) (r : record) :
  emitted line = [r] ->
  (Str.split Str.comma line = ["1"] /\ r = [VInt 1; VInt 2; VInt 3])
  \/ (exists x, Str.split Str.comma line = [x] /\ x <> "" /\ x <> "1"
                /\ r = [VStr x; VNone; VNone])
  \/ (exists x y, Str.split Str.comma line = [x; y]
                  /\ r = [VStr x; VStr y; VNone])
  \/ (exists x y z, Str.split Str.comma line = [x; y; z]
                    /\ r = [VStr x; VStr y; VStr z]).
Proof.
  unfold emitted, body.
  destruct (Str.split Str.comma line) as [|a [|b [|c [|d more]]]] eqn:E.
  - simpl. discriminate.
  - rewrite classify_single.
    destruct (String.eqb a "") eqn:E1; [simpl; discriminate|].
    destruct (String.eqb a "1") eqn:E2; simpl; intros [= <-].
    + left. apply String.eqb_eq in E2. subst a. split; reflexivity.
    + right; left. exists a. apply String.eqb_neq in E1, E2.
      repeat split; assumption.
  - simpl. intros [= <-]. right; right; left. exists a, b. split; reflexivity.
  - simpl. intros [= <-]. right; right; right. exists a, b, c.
    split; reflexivity.
  - simpl. discriminate.
Qed.

(** A line adds one record at most, and exactly one when it is not empty
    and the body does not raise on it. *)
Lemma emitted_at_most_one (line : string) :
  emitted line = [] \/ exists r, emitted line = [r].
Proof.
  unfold emitted, body.
  destruct (classify (Str.split Str.comma line)) as [[r| |msg|s]|]; simpl;
    [right; eexists; reflexivity | left .. ]; reflexivity.
Qed.

Lemma emitted_nil_iff (line : string) :
  emitted line = [] <-> line = "" \/ raises_on line = true.
Proof.
  unfold emitted, raises_on, body.
  destruct (Str.split Str.comma line) as [|a [|b [|c [|d more]]]] eqn:E.
  - now apply split_not_nil in E.
  - rewrite classify_single.
    destruct (String.eqb a "") eqn:E1.
    + apply String.eqb_eq in E1. subst a. apply split_singleton in E.
      simpl. split; [intros _; left; exact E | reflexivity].
    + assert (line <> "").
      { intros ->. simpl in E. injection E as <-. discriminate E1. }
      destruct (String.eqb a "1"); simpl;
        (split; [discriminate | intros [K | K]; [contradiction | discriminate]]).
  - simpl. split; [discriminate|].
    intros [-> | K]; [discriminate E | discriminate K].
  - simpl. split; [discriminate|].
    intros [-> | K]; [discriminate E | discriminate K].
  - simpl. split; [intros _; right|]; reflexivity.
Qed.

Lemma emitted_one (line : string) :
  raises_on line = false -> nonempty line = true ->
  exists r, emitted line = [r].
Proof.
  intros R N.
  destruct (emitted_at_most_one line) as [E | E]; [|exact E].
  apply emitted_nil_iff in E. destruct E as [-> | E].
  - discriminate N.
  - rewrite R in E. discriminate E.
Qed.

Lemma emitted_injective (l1 l2 : string) (r : record) :
  emitted l1 = [r] -> emitted l2 = [r] -> l1 = l2.
Proof.
  intros H1 H2. apply emitted_inv in H1, H2.
  apply (split_injective Str.comma).
  destruct H1 as [[S1 R1] | [(x & S1 & _ & _ & R1)
                 | [(x & y & S1 & R1) | (x & y & z & S1 & R1)]]];
  destruct H2 as [[S2 R2] | [(x' & S2 & _ & _ & R2)
                 | [(x' & y' & S2 & R2) | (x' & y' & z' & S2 & R2)]]];
  congruence.
Qed.

Lemma flat_map_emitted_length_le (lines : list string) :
  List.length (flat_map emitted (rows_before_raise lines))
  <= List.length (filter nonempty lines).
Proof.
  induction lines as [|line rest IH]; simpl; [lia|].
  destruct (raises_on line) eqn:R; simpl.
  - destruct (nonempty line); simpl; lia.
  - rewrite length_app.
    destruct (nonempty line) eqn:N; simpl.
    + destruct (emitted_one line R N) as [r ->]. simpl. lia.
    + assert (E : emitted line = []).
      { apply emitted_nil_iff. left. unfold nonempty in N.
        apply negb_false_iff in N. now apply String.eqb_eq in N. }
      rewrite E. simpl. exact IH.
Qed.

Lemma flat_map_emitted_length (lines : list string) :
  existsb raises_on lines = false ->
  List.length (flat_map emitted lines) = List.length (filter nonempty lines).
Proof.
  induction lines as [|line rest IH]; simpl; [reflexivity|].
  destruct (raises_on line) eqn:R; simpl; [discriminate|].
  intros H. rewrite length_app, (IH H).
  destruct (nonempty line) eqn:N; simpl.
  - destruct (emitted_one line R N) as [r ->]. reflexivity.
  - assert (E : emitted line = []).
    { apply emitted_nil_iff. left. unfold nonempty in N.
      apply negb_false_iff in N. now apply String.eqb_eq in N. }
    now rewrite E.
Qed.

Lemma flat_map_emitted_injective (rows1 rows2 : list string) :
  Forall (fun line => exists r, emitted line = [r]) rows1 ->
  Forall (fun line => exists r, emitted line = [r]) rows2 ->
  flat_map emitted rows1 = flat_map emitted rows2 ->
  rows1 = rows2.
Proof.
  intros H1. revert rows2.
  induction H1 as [|l1 rest1 [r1 E1] _ IH]; intros rows2 H2 H.
  - destruct H2 as [|l2 rest2 [r2 E2] _]; [reflexivity|].
    simpl in H. rewrite E2 in H. discriminate H.
  - destruct H2 as [|l2 rest2 [r2 E2] H2]; simpl in H.
    + rewrite E1 in H. discriminate H.
    + rewrite E1, E2 in H. simpl in H. injection H as <- H.
      rewrite (emitted_injective l1 l2 r1 E1 E2).
      now rewrite (IH rest2 H2 H).
Qed.

Lemma normal_rows_emit_one (lines : list string) :
  existsb raises_on lines = false ->
  Forall (fun line => exists r, emitted line = [r]) (filter nonempty lines).
Proof.
  intros H. apply Forall_forall. intros line Hin.
  apply filter_In in Hin. destruct Hin as [Hin N].
  apply emitted_one; [|exact N].
  apply not_true_is_false. intros R.
  assert (K : existsb raises_on lines = true)
    by (apply existsb_exists; exists line; split; assumption).
  rewrite H in K. discriminate K.
Qed.

(** ** The extras *)

(** X1. The loop only ever adds to the end of [values]: run on a list
    [values] it gives what it gives on the empty list, with [values] in
    front, and it raises on the one exactly when it raises on the other.
    So the records that are in [values] before the loop are still there, in
    place, when it ends or raises. *)
Theorem X1_loop_only_appends (lines : list string) (values : list record) :
  for_loop lines values = prepend values (for_loop lines [])
  /\ (exists added, values_of (for_loop lines values) = values ++ added)
  /\ raised (for_loop lines values) = raised (for_loop lines []).
Proof.
  rewrite for_loop_prepend.
  destruct (for_loop lines []) as [added | msg added]; simpl;
    (split; [reflexivity | split; [exists added|]; reflexivity]).
Qed.

(** X2. Two texts glued by a line break are processed one after the other:
    when the loop ends normally on both, the result is the records of the
    first followed by the records of the second; when it raises on the
    first, the second is not looked at; when it raises on the second only,
    the exception carries the records of the first followed by those the
    second had added. *)
Theorem X2_texts_compose (a b : string) :
  transform (a ++ NL ++ b) =
  match transform a, transform b with
  | Normal va, Normal vb => Normal (va ++ vb)
  | Normal va, Raised msg vb => Raised msg (va ++ vb)
  | Raised msg va, _ => Raised msg va
  end.
Proof.
  rewrite transform_glue.
  destruct (transform a); simpl; [|reflexivity].
  destruct (transform b); reflexivity.
Qed.

(** X3. Blank lines in the text do not count: a line break in front of the
    text, a line break at its end, or a second line break behind a line
    break leave the outcome of the loop as it is, whether it ends normally
    or raises. *)
Theorem X3_blank_lines_ignored (text : string) :
  transform (NL ++ text) = transform text
  /\ transform (text ++ NL) = transform text
  /\ (forall rest, transform (text ++ NL ++ NL ++ rest)
                   = transform (text ++ NL ++ rest)).
Proof.
  split; [|split].
  - change (NL ++ text)%string with ("" ++ NL ++ text)%string.
    rewrite transform_glue. simpl.
    destruct (transform text); reflexivity.
  - change (text ++ NL)%string with (text ++ NL ++ "")%string.
    rewrite transform_glue.
    destruct (transform text); simpl; [|reflexivity].
    now rewrite app_nil_r.
  - intros rest. rewrite !transform_glue.
    change (NL ++ rest)%string with ("" ++ NL ++ rest)%string.
    rewrite transform_glue. simpl.
    destruct (transform text); simpl; [|reflexivity].
    destruct (transform rest); reflexivity.
Qed.

(** X4. The empty line is the only line that the body passes over: the
    body leaves [values] as it is and goes on exactly when the line is the
    empty text. A line of commas only, or of blanks, is not skipped. *)
Theorem X4_only_empty_line_skipped (line : string) (values : list record) :
  body line values = Normal values <-> line = "".
Proof.
  split.
  - destruct (raises_on line) eqn:R.
    + rewrite (body_raises line values R). discriminate.
    + rewrite (body_emitted line values R). intros [= H].
      rewrite <- (app_nil_r values) in H at 2.
      apply app_inv_head in H.
      apply emitted_nil_iff in H. destruct H as [H | H]; [exact H|].
      rewrite R in H. discriminate H.
  - intros ->. reflexivity.
Qed.

(** X5. The loop adds one record for each non-empty line it gets through:
    [values] never holds more records than the text has non-empty lines,
    which are at most one more than its line breaks, and when the loop ends
    normally [values] holds exactly as many records as the text has
    non-empty lines. *)
Theorem X5_one_record_per_nonempty_line (text : string) :
  List.length (values_of (transform text))
  <= List.length (filter nonempty (Str.split Str.newline text))
  /\ List.length (filter nonempty (Str.split Str.newline text))
     <= S (Str.count_char Str.newline text)
  /\ (raised (transform text) = false ->
      List.length (values_of (transform text))
      = List.length (filter nonempty (Str.split Str.newline text))).
Proof.
  unfold transform. split; [|split].
  - rewrite for_loop_values. simpl. apply flat_map_emitted_length_le.
  - rewrite <- split_length. apply filter_length_le.
  - rewrite for_loop_raised. intros H.
    rewrite for_loop_outcome, H. simpl.
    now apply flat_map_emitted_length.
Qed.

(** X6. No text element of a record holds a comma or a line break: the
    tokens are cut at every comma of a line, and the lines at every line
    break of the text. This holds for the records in [values] when the loop
    ends and also when it raises. *)
Theorem X6_tokens_hold_no_separator (text : string) :
  Forall (Forall separator_free) (values_of (transform text)).
Proof.
  unfold transform. rewrite for_loop_values. simpl.
  apply Forall_forall. intros r Hr.
  apply in_flat_map in Hr. destruct Hr as [line [Hline Hr]].
  apply rows_before_raise_incl in Hline. destruct Hline as [Hline _].
  destruct (emitted_shape line r Hr) as [_ Hall].
  apply Forall_forall. intros v Hv.
  rewrite Forall_forall in Hall. specialize (Hall v Hv).
  destruct v as [tok | n |]; simpl in *; [|exact I | exact I].
  split.
  - exact (split_piece_no_sep Str.comma line tok Hall).
  - pose proof (split_piece_le Str.comma Str.newline line tok Hall) as Hle.
    rewrite (split_piece_no_sep Str.newline text line Hline) in Hle. lia.
Qed.

(** X7. Every record in [values] has one of four forms: three texts; two
    texts and [None]; one text, which is neither empty nor ["1"], and two
    [None]; or the integers [1, 2, 3]. So the first element is never
    [None], a [None] is never followed by a text, and integers occur only
    as the whole record [[1, 2, 3]]. *)
Theorem X7_records_normalized (text : string) :
  Forall normalized (values_of (transform text)).
Proof.
  unfold transform. rewrite for_loop_values. simpl.
  apply Forall_forall. intros r Hr.
  apply in_flat_map in Hr. destruct Hr as [line [_ Hr]].
  destruct (emitted_at_most_one line) as [E | [r' E]];
    rewrite E in Hr; simpl in Hr; [contradiction|].
  destruct Hr as [<- | []].
  apply emitted_inv in E. unfold normalized.
  destruct E as [[_ ->] | [(x & _ & N1 & N2 & ->)
               | [(x & y & _ & ->) | (x & y & z & _ & ->)]]].
  - right; right; right. reflexivity.
  - right; right; left. exists x. repeat split; assumption.
  - right; left. exists x, y. reflexivity.
  - left. exists x, y, z. reflexivity.
Qed.

(** X8. The record tells the line: two lines on which the body appends the
    same record are the same line. In particular the record [[1, 2, 3]] of
    the line ["1"] differs from the record [["1", "2", "3"]] of the line
    ["1,2,3"]. *)
Theorem X8_record_determines_line (l1 l2 : string) (r : record)
    (values1 values2 : list record) :
  body l1 values1 = Normal (values1 ++ [r]) ->
  body l2 values2 = Normal (values2 ++ [r]) ->
  l1 = l2.
Proof.
  intros H1 H2.
  apply (emitted_injective l1 l2 r).
  - unfold emitted. rewrite body_frame in H1.
    destruct (body l1 []) as [e | m e]; [|discriminate H1].
    injection H1 as H1. apply app_inv_head in H1. simpl. exact H1.
  - unfold emitted. rewrite body_frame in H2.
    destruct (body l2 []) as [e | m e]; [|discriminate H2].
    injection H2 as H2. apply app_inv_head in H2. simpl. exact H2.
Qed.

Lemma X8_witness : "1,2" = "1,2".
Proof.
  apply (X8_record_determines_line "1,2" "1,2" [VStr "1"; VStr "2"; VNone]
           [] [[VInt 1; VInt 2; VInt 3]]); reflexivity.
Defined.

(** X9. The result tells the text up to blank lines: when the loop ends
    normally on two texts with the same list [values], the two texts have
    the same non-empty lines in the same order. *)
Theorem X9_result_determines_lines (text1 text2 : string)
    (values : list record) :
  transform text1 = Normal values ->
  transform text2 = Normal values ->
  filter nonempty (Str.split Str.newline text1)
  = filter nonempty (Str.split Str.newline text2).
Proof.
  unfold transform. rewrite !for_loop_outcome.
  destruct (existsb raises_on (Str.split Str.newline text1)) eqn:R1;
    [discriminate|].
  destruct (existsb raises_on (Str.split Str.newline text2)) eqn:R2;
    [discriminate|].
  simpl. intros [= H1] [= H2].
  apply flat_map_emitted_injective.
  - now apply normal_rows_emit_one.
  - now apply normal_rows_emit_one.
  - rewrite !flat_map_emitted_nonempty. congruence.
Qed.

Lemma X9_witness :
  filter nonempty (Str.split Str.newline bad_csv)
  = filter nonempty
      (Str.split Str.newline
         ("0,1,2" ++ NL ++ "1,2,3" ++ NL ++ NL ++ "1,2" ++ NL ++ "0" ++ NL ++ "1")%string).
Proof.
  apply (X9_result_determines_lines bad_csv
           ("0,1,2" ++ NL ++ "1,2,3" ++ NL ++ NL ++ "1,2" ++ NL ++ "0" ++ NL ++ "1")%string
           [[VStr "0"; VStr "1"; VStr "2"];
            [VStr "1"; VStr "2"; VStr "3"];
            [VStr "1"; VStr "2"; VNone];
            [VStr "0"; VNone; VNone];
            [VInt 1; VInt 2; VInt 3]]); reflexivity.
Defined.

(** X10. In a [match] statement a clause is dead when an earlier clause
    matches every subject that it matches: taking the later clause out
    changes nothing. This is what happens to [case ["a"]] behind [case [x]]
    in cell 4. *)
Theorem X10_shadowed_clause_is_dead
    (pre mid post : list clause) (c d : clause) (subject : list string) :
  (forall s, d s <> None -> c s <> None) ->
  match_stmt (pre ++ c :: mid ++ d :: post) subject
  = match_stmt (pre ++ c :: mid ++ post) subject.
Proof.
  intros Hcover.
  rewrite !(match_stmt_app pre).
  destruct (match_stmt pre subject); [reflexivity|]. simpl.
  destruct (c subject) eqn:C; [reflexivity|].
  rewrite !(match_stmt_app mid).
  destruct (match_stmt mid subject); [reflexivity|]. simpl.
  destruct (d subject) eqn:D; [|reflexivity].
  exfalso. apply (Hcover subject); [rewrite D; discriminate | exact C].
Qed.

Lemma X10_witness :
  match_stmt ([] ++ Demo.case_capture :: [] ++ Demo.case_literal :: []) ["a"]
  = match_stmt ([] ++ Demo.case_capture :: [] ++ []) ["a"].
Proof.
  apply (X10_shadowed_clause_is_dead [] [] []
           Demo.case_capture Demo.case_literal ["a"]).
  intros [|x [|y more]]; simpl; intros H; try (exact H); discriminate.
Defined.



(** X12. [split] with a one-character separator: the number of pieces is
    the number of separators in the text plus one, no piece holds the
    separator, the pieces of two texts glued by the separator are the
    pieces of the first followed by the pieces of the second, and two texts
    with the same pieces are the same text. *)
Theorem X12_split_pieces (sep : ascii) (s : string) :
  List.length (Str.split sep s) = S (Str.count_char sep s)
  /\ Forall (fun piece => Str.count_char sep piece = 0) (Str.split sep s)
  /\ (forall t, Str.split sep (s ++ String sep t)
                = Str.split sep s ++ Str.split sep t)
  /\ (forall t, Str.split sep s = Str.split sep t -> s = t).
Proof.
  split; [apply split_length|].
  split; [apply Forall_forall; intros p; apply split_piece_no_sep|].
  split; [intros t; apply split_glue|].
  intros t. apply split_injective.
Qed.
